(** * PageRank notebook: the result scans of [cugraph/link_analysis/Pagerank.ipynb]

    The notebook loads an edge list, calls the PageRank routines of NetworkX
    and cuGraph, and then inspects the resulting score table [gdf_page] with
    a handful of Python statements: an index loop that finds the best vertex,
    [pr_max], [print_pagerank_threshold] and [sort_pr].  Those statements are
    the code of the notebook itself and are embedded here.

    - a table is the list of its rows, in row (positional index) order;
    - a score is an IEEE-754 value, [spec_float], compared with the
      comparisons of [SpecFloat], so that a NaN compares false with
      everything, exactly as Python's [>] and [>=] do;
    - a cell runs in the monad [Py]: it threads the text written with
      [print] and may stop with a Python exception. *)

From Stdlib Require Import ZArith List Bool Lia String Ascii.
From Stdlib Require Import Sorting.Sorted Sorting.Permutation.
From Stdlib Require Import Floats.SpecFloat.
From Stdlib Require Import DecimalString DecimalPos DecimalZ.
Import ListNotations.

Local Open Scope Z_scope.

(** ** IEEE comparison as an order *)

Module FloatOrder.

(** A number (anything but NaN) is placed on a line by its class, then the
    signed exponent, then the signed mantissa.  [SFcompare] is the
    lexicographic comparison of these keys. *)
Definition key (x : spec_float) : Z * Z * Z :=
  match x with
  | S754_infinity true => (-2, 0, 0)
  | S754_finite true m e => (-1, - e, - Zpos m)
  | S754_zero _ => (0, 0, 0)
  | S754_nan => (0, 0, 0)
  | S754_finite false m e => (1, e, Zpos m)
  | S754_infinity false => (2, 0, 0)
  end.

Definition k1 (x : spec_float) : Z := fst (fst (key x)).
Definition k2 (x : spec_float) : Z := snd (fst (key x)).
Definition k3 (x : spec_float) : Z := snd (key x).

Definition key_lt (x y : spec_float) : Prop :=
  k1 x < k1 y \/ (k1 x = k1 y /\ (k2 x < k2 y \/ (k2 x = k2 y /\ k3 x < k3 y))).

Definition key_eq (x y : spec_float) : Prop :=
  k1 x = k1 y /\ k2 x = k2 y /\ k3 x = k3 y.

Definition is_nan (x : spec_float) : bool :=
  match x with S754_nan => true | _ => false end.

Definition number (x : spec_float) : Prop := is_nan x = false.

End FloatOrder.

(** ** Python cells: printed text and exceptions *)

Module PyMonad.

Inductive PyExn : Type := IndexError.

(** What the notebook has printed so far, one entry per [print] call. *)
Definition stdout : Type := list string.

Definition Py (A : Type) : Type := stdout -> (PyExn + A) * stdout.

Definition ret {A} (a : A) : Py A := fun out => (inr a, out).

Definition raise {A} (e : PyExn) : Py A := fun out => (inl e, out).

Definition bind {A B} (m : Py A) (f : A -> Py B) : Py B :=
  fun out =>
    match m out with
    | (inr a, out') => f a out'
    | (inl e, out') => (inl e, out')
    end.

Definition print (s : string) : Py unit := fun out => (inr tt, out ++ [s]).

(** [for i in l: body], the loop variables being threaded as [s]. *)
Fixpoint for_in {S} (l : list nat) (body : nat -> S -> Py S) (s : S) : Py S :=
  match l with
  | [] => ret s
  | i :: l' => bind (body i s) (for_in l' body)
  end.

Definition range (n : nat) : list nat := seq 0 n.

End PyMonad.

Import PyMonad.

Notation "x <- c1 ;; c2" := (bind c1 (fun x => c2))
  (at level 61, c1 at next level, right associativity).
Notation "c1 ;;; c2" := (bind c1 (fun _ => c2))
  (at level 61, right associativity).

(** ** The score table *)

(** A row of [gdf_page]: the columns ['vertex'] (int32) and ['pagerank']
    (float32). *)
Record row : Type := mkRow { vertex : Z; pagerank : spec_float }.

Definition DataFrame : Type := list row.

Definition len (df : DataFrame) : nat := List.length df.

(** [df['vertex']] and [df['pagerank']]. *)
Definition col_vertex (df : DataFrame) : list Z := map vertex df.
Definition col_pagerank (df : DataFrame) : list spec_float := map pagerank df.

(** [series[i]] for an index [i >= 0]: the value at position [i], and an
    [IndexError] past the end.  The index is a position, not a row label:
    cell 15 prints the line of vertex 34 from a filtered table whose only
    row is read as [filtered['vertex'][0]]. *)
Definition getitem {A} (series : list A) (i : nat) : Py A :=
  match nth_error series i with
  | Some a => ret a
  | None => raise IndexError
  end.

(** [str] of a vertex identifier. *)
Definition str_int (z : Z) : string := NilZero.string_of_int (Z.to_int z).

(** A positive binary32 value [m * 2^e]. *)
Definition f32 (m : positive) (e : Z) : spec_float := S754_finite false m e.

Definition zero : spec_float := S754_zero false.

Definition nan_free (df : DataFrame) : Prop :=
  Forall (fun r => FloatOrder.number (pagerank r)) df.

(** ** The cells of the notebook *)

(** Cell 12, the loop:
<<
bestScore = gdf_page['pagerank'][0]
bestVert = gdf_page['vertex'][0]

for i in range(len(gdf_page)):
    if gdf_page['pagerank'][i] > bestScore:
        bestScore = gdf_page['pagerank'][i]
        bestVert = gdf_page['vertex'][i]
>>
    The result is the pair [(bestVert, bestScore)]. *)
Definition inline_max_scan (gdf_page : DataFrame) : Py (Z * spec_float) :=
  bestScore <- getitem (col_pagerank gdf_page) 0 ;;
  bestVert <- getitem (col_vertex gdf_page) 0 ;;
  for_in (range (len gdf_page))
    (fun i best =>
       let '(bestVert, bestScore) := best in
       s <- getitem (col_pagerank gdf_page) i ;;
       if SFltb bestScore s then
         bestScore <- getitem (col_pagerank gdf_page) i ;;
         bestVert <- getitem (col_vertex gdf_page) i ;;
         ret (bestVert, bestScore)
       else ret (bestVert, bestScore))
    (bestVert, bestScore).

(** [pr_max = gdf_page['pagerank'].max()]: the maximum of a column, the
    earlier value being kept among equal ones; there is none in an empty
    column. *)
Fixpoint series_max (s : list spec_float) : option spec_float :=
  match s with
  | [] => None
  | x :: s' =>
      match series_max s' with
      | None => Some x
      | Some m => Some (if SFltb x m then m else x)
      end
  end.

Definition pr_max (gdf_page : DataFrame) : option spec_float :=
  series_max (col_pagerank gdf_page).

(** [_df.query('pagerank >= @t')]: the rows whose score is at least [t], in
    table order. *)
Definition query_ge (df : DataFrame) (t : spec_float) : DataFrame :=
  filter (fun r => SFleb t (pagerank r)) df.

(** [sort_pr = gdf_page.sort_values('pagerank', ascending=False)]: rows by
    descending score, as a sort by insertion that keeps rows of equal score
    in table order. *)
Fixpoint insert_desc (r : row) (l : DataFrame) : DataFrame :=
  match l with
  | [] => [r]
  | r' :: l' =>
      if SFltb (pagerank r) (pagerank r') then r' :: insert_desc r l'
      else r :: l
  end.

Fixpoint sort_values_desc (df : DataFrame) : DataFrame :=
  match df with
  | [] => []
  | r :: df' => insert_desc r (sort_values_desc df')
  end.

Definition sort_pr (gdf_page : DataFrame) : DataFrame :=
  sort_values_desc gdf_page.

Section Printing.

(** [str] of a float32 score is NumPy's shortest decimal rendering; the
    cells are embedded for any rendering. *)
Variable str_float : spec_float -> string.

(** ["Best vertex is " + str(v) + " with score of " + str(s)] *)
Definition best_vertex_line (v : Z) (s : spec_float) : string :=
  ("Best vertex is " ++ str_int v ++ " with score of " ++ str_float s)%string.

Definition line_of (r : row) : string :=
  best_vertex_line (vertex r) (pagerank r).

(** Cell 12, whole: the loop, then the line it prints. *)
Definition best_vertex_cell (gdf_page : DataFrame) : Py (Z * spec_float) :=
  best <- inline_max_scan gdf_page ;;
  print (best_vertex_line (fst best) (snd best)) ;;;
  ret best.

(** Cell 14:
<<
def print_pagerank_threshold(_df, t=0) :
    filtered = _df.query('pagerank >= @t')

    for i in range(len(filtered)):
        print("Best vertex is " + str(filtered['vertex'][i]) +
            " with score of " + str(filtered['pagerank'][i]))
>> *)
Definition print_pagerank_threshold (_df : DataFrame) (t : spec_float)
  : Py unit :=
  let filtered := query_ge _df t in
  for_in (range (len filtered))
    (fun i _ =>
       v <- getitem (col_vertex filtered) i ;;
       s <- getitem (col_pagerank filtered) i ;;
       print (best_vertex_line v s))
    tt.

End Printing.

(** The default threshold, [t=0]. *)
Definition print_pagerank_threshold_default
  (str_float : spec_float -> string) (_df : DataFrame) : Py unit :=
  print_pagerank_threshold str_float _df zero.

(** One turn of the loop of cell 12, on the row it reads. *)
Definition keep_best (best : Z * spec_float) (r : row) : Z * spec_float :=
  if SFltb (snd best) (pagerank r) then (vertex r, pagerank r) else best.

(** ** The best row of a table *)

(** Row [i] is the first row of the greatest score: no score of the table
    is above its score, and every score before it is strictly below. *)
Definition first_max (df : DataFrame) (i : nat) (r : row) : Prop :=
  nth_error df i = Some r /\
  (forall r', In r' df -> SFleb (pagerank r') (pagerank r) = true) /\
  (forall j r', (j < i)%nat -> nth_error df j = Some r' ->
                SFltb (pagerank r') (pagerank r) = true).

(** Rows by descending score: the earlier row has a score [>=] the later. *)
Definition desc_score (r1 r2 : row) : Prop :=
  SFleb (pagerank r2) (pagerank r1) = true.

(** The order of the reporter's contract: descending score, and ascending
    vertex identifier among equal scores. *)
Definition reporter_order (r1 r2 : row) : Prop :=
  SFltb (pagerank r2) (pagerank r1) = true \/
  (SFeqb (pagerank r1) (pagerank r2) = true /\ vertex r1 <= vertex r2).

(** ** The remaining cells *)

(** [df.head(n)]: the first [n] rows. *)
Definition head {A} (n : nat) (df : list A) : list A := firstn n df.

(** Cell 17: [sort_pr.head(3)]. *)
Definition sort_pr_head (gdf_page : DataFrame) : DataFrame :=
  head 3 (sort_pr gdf_page).

(** A row of [d = G.degrees()]: the columns ['vertex'], ['in_degree'] and
    ['out_degree']. *)
Record degree_row : Type :=
  mkDegree { d_vertex : Z; in_degree : Z; out_degree : Z }.

(** [d.sort_values('out_degree', ascending=False)], by insertion as for
    [sort_pr]. *)
Fixpoint insert_out_degree_desc (r : degree_row) (l : list degree_row)
  : list degree_row :=
  match l with
  | [] => [r]
  | r' :: l' =>
      if out_degree r <? out_degree r' then r' :: insert_out_degree_desc r l'
      else r :: l
  end.

Fixpoint sort_values_out_degree_desc (d : list degree_row) : list degree_row :=
  match d with
  | [] => []
  | r :: d' => insert_out_degree_desc r (sort_values_out_degree_desc d')
  end.

(** Cell 19: [d.sort_values('out_degree', ascending=False).head(4)]. *)
Definition degrees_head (d : list degree_row) : list degree_row :=
  head 4 (sort_values_out_degree_desc d).

(** Rows by descending out-degree. *)
Definition desc_out_degree (r1 r2 : degree_row) : Prop :=
  out_degree r2 <= out_degree r1.

(** Reading a printed line back: the text between ["Best vertex is "] and
    the next blank, as an integer. *)
Fixpoint before_blank (s : string) : string :=
  match s with
  | EmptyString => EmptyString
  | String c s' =>
      if Ascii.eqb c " " then EmptyString else String c (before_blank s')
  end.

Fixpoint skip_chars (n : nat) (s : string) : string :=
  match n, s with
  | S n', String _ s' => skip_chars n' s'
  | _, _ => s
  end.

Definition vertex_of_line (line : string) : option Z :=
  match NilZero.int_of_string (before_blank (skip_chars 15 line)) with
  | Some d => Some (Z.of_int d)
  | None => None
  end.

(** ** Tables used as examples *)

(** Three rows of [gdf_page] as the notebook shows them (vertices 1, 33 and
    34 with the scores 0.096573, 0.071377 and 0.10047409), in table order. *)
Definition row_1 : row := mkRow 1 (f32 12961809 (-27)).
Definition row_33 : row := mkRow 33 (f32 9580059 (-27)).
Definition row_34 : row := mkRow 34 (f32 13485404 (-27)).
Definition karate_rows : DataFrame := [row_1; row_33; row_34].

(** Two vertices with the same score 0.5, the larger identifier first. *)
Definition tied_rows : DataFrame :=
  [mkRow 34 (f32 8388608 (-24)); mkRow 1 (f32 8388608 (-24))].

(** A rendering of scores for the examples. *)
Definition str_blank (s : spec_float) : string := EmptyString.

(** * Proofs *)

(** ** The comparisons of scores *)

Module FloatOrderFacts.

Import FloatOrder.

Ltac cmp_cases :=
  repeat match goal with
    | |- context [Z.compare ?a ?b] =>
        destruct (Z.compare_spec a b); subst; simpl
    | |- context [Pos.compare_cont Eq ?a ?b] =>
        change (Pos.compare_cont Eq a b) with (Pos.compare a b);
        destruct (Pos.compare_spec a b); subst; simpl
    end.

Lemma SFcompare_key (x y : spec_float) :
  match SFcompare x y with
  | Some Lt => number x /\ number y /\ key_lt x y
  | Some Eq => number x /\ number y /\ key_eq x y
  | Some Gt => number x /\ number y /\ key_lt y x
  | None => is_nan x = true \/ is_nan y = true
  end.
Proof.
  unfold number, key_lt, key_eq, k1, k2, k3.
  destruct x as [[|]|[|]| |[|] m1 e1], y as [[|]|[|]| |[|] m2 e2];
    simpl; auto; try (repeat split; lia);
    cmp_cases; repeat split; lia.
Qed.

(** The three boolean comparisons, read on keys. *)
Lemma SFltb_spec (x y : spec_float) :
  SFltb x y = true <-> number x /\ number y /\ key_lt x y.
Proof.
  unfold SFltb. pose proof (SFcompare_key x y) as K.
  unfold number, key_lt, key_eq in *.
  destruct (SFcompare x y) as [[| |]|]; split; intros H;
    try discriminate; try reflexivity; try tauto; exfalso;
    try lia; destruct K as [K|K]; rewrite K in H;
    destruct H as (? & ? & _); discriminate.
Qed.

Lemma SFleb_spec (x y : spec_float) :
  SFleb x y = true <-> number x /\ number y /\ (key_lt x y \/ key_eq x y).
Proof.
  unfold SFleb. pose proof (SFcompare_key x y) as K.
  unfold number, key_lt, key_eq in *.
  destruct (SFcompare x y) as [[| |]|]; split; intros H;
    try discriminate; try reflexivity; try tauto; exfalso;
    try lia; destruct K as [K|K]; rewrite K in H;
    destruct H as (? & ? & _); discriminate.
Qed.

Lemma SFeqb_spec (x y : spec_float) :
  SFeqb x y = true <-> number x /\ number y /\ key_eq x y.
Proof.
  unfold SFeqb. pose proof (SFcompare_key x y) as K.
  unfold number, key_lt, key_eq in *.
  destruct (SFcompare x y) as [[| |]|]; split; intros H;
    try discriminate; try reflexivity; try tauto; exfalso;
    try lia; destruct K as [K|K]; rewrite K in H;
    destruct H as (? & ? & _); discriminate.
Qed.

(** [float_order] settles a goal about comparisons of scores by reading
    every comparison on keys and leaving linear arithmetic. *)
Ltac float_order :=
  repeat match goal with
    | H : SFltb _ _ = true |- _ => apply SFltb_spec in H
    | H : SFleb _ _ = true |- _ => apply SFleb_spec in H
    | H : SFeqb _ _ = true |- _ => apply SFeqb_spec in H
    | H : SFltb _ _ = false |- _ =>
        apply not_true_iff_false in H; rewrite SFltb_spec in H
    | H : SFleb _ _ = false |- _ =>
        apply not_true_iff_false in H; rewrite SFleb_spec in H
    | H : SFeqb _ _ = false |- _ =>
        apply not_true_iff_false in H; rewrite SFeqb_spec in H
    | |- SFltb _ _ = true => apply SFltb_spec
    | |- SFleb _ _ = true => apply SFleb_spec
    | |- SFeqb _ _ = true => apply SFeqb_spec
    | |- SFltb _ _ = false => apply not_true_iff_false; rewrite SFltb_spec
    | |- SFleb _ _ = false => apply not_true_iff_false; rewrite SFleb_spec
    | |- SFeqb _ _ = false => apply not_true_iff_false; rewrite SFeqb_spec
    end;
  unfold number, key_lt, key_eq in *;
  repeat match goal with
    | H : _ /\ _ |- _ => destruct H
    end;
  first [ tauto | intuition lia ].

Lemma SFleb_refl x : number x -> SFleb x x = true.
Proof. intros; float_order. Qed.

Lemma SFleb_trans x y z :
  SFleb x y = true -> SFleb y z = true -> SFleb x z = true.
Proof. intros; float_order. Qed.

Lemma SFltb_leb x y : SFltb x y = true -> SFleb x y = true.
Proof. intros; float_order. Qed.

Lemma SFltb_leb_trans x y z :
  SFltb x y = true -> SFleb y z = true -> SFltb x z = true.
Proof. intros; float_order. Qed.

Lemma SFleb_ltb_trans x y z :
  SFleb x y = true -> SFltb y z = true -> SFltb x z = true.
Proof. intros; float_order. Qed.

Lemma SFltb_false_leb x y :
  number x -> number y -> SFltb x y = false -> SFleb y x = true.
Proof. intros; float_order. Qed.

Lemma SFleb_ltb_false x y : SFleb y x = true -> SFltb x y = false.
Proof. intros; float_order. Qed.

Lemma SFltb_leb_false x y : SFltb x y = true -> SFleb y x = false.
Proof. intros; float_order. Qed.

Lemma SFltb_irrefl x : SFltb x x = false.
Proof. float_order. Qed.

Lemma SFeqb_leb x y :
  SFeqb x y = true <-> SFleb x y = true /\ SFleb y x = true.
Proof. split; [intros H; split | intros [H1 H2]]; float_order. Qed.

Lemma SFleb_cases x y :
  SFleb x y = true <-> SFltb x y = true \/ SFeqb x y = true.
Proof.
  split.
  - intros H. destruct (SFltb x y) eqn:E; [now left | right]. float_order.
  - intros [H|H]; float_order.
Qed.

Lemma SFleb_number_l x y : SFleb x y = true -> number x.
Proof. intros H. apply SFleb_spec in H. tauto. Qed.

Lemma SFleb_number_r x y : SFleb x y = true -> number y.
Proof. intros H. apply SFleb_spec in H. tauto. Qed.

Lemma SFeqb_number_l x y : SFeqb x y = true -> number x.
Proof. intros H. apply SFeqb_spec in H. tauto. Qed.

End FloatOrderFacts.

(** ** What the loops compute *)

Lemma nth_error_middle {A} (pre : list A) (a : A) (post : list A) :
  nth_error (pre ++ a :: post) (List.length pre) = Some a.
Proof.
  rewrite nth_error_app2 by lia. now rewrite Nat.sub_diag.
Qed.

Lemma getitem_pagerank (df : DataFrame) (i : nat) (r : row) (out : stdout) :
  nth_error df i = Some r ->
  getitem (col_pagerank df) i out = (inr (pagerank r), out).
Proof.
  intros H. unfold getitem, col_pagerank.
  now rewrite nth_error_map, H.
Qed.

Lemma getitem_vertex (df : DataFrame) (i : nat) (r : row) (out : stdout) :
  nth_error df i = Some r ->
  getitem (col_vertex df) i out = (inr (vertex r), out).
Proof.
  intros H. unfold getitem, col_vertex.
  now rewrite nth_error_map, H.
Qed.

Lemma getitem_past_end {A} (series : list A) (i : nat) (out : stdout) :
  (List.length series <= i)%nat ->
  getitem series i out = (inl IndexError, out).
Proof.
  intros H. unfold getitem.
  apply nth_error_None in H. now rewrite H.
Qed.

Lemma scan_loop (l pre : DataFrame) (best : Z * spec_float) (out : stdout) :
  for_in (seq (List.length pre) (List.length l))
    (fun i best =>
       let '(bestVert, bestScore) := best in
       s <- getitem (col_pagerank (pre ++ l)) i ;;
       if SFltb bestScore s then
         bestScore <- getitem (col_pagerank (pre ++ l)) i ;;
         bestVert <- getitem (col_vertex (pre ++ l)) i ;;
         ret (bestVert, bestScore)
       else ret (bestVert, bestScore))
    best out
  = (inr (fold_left keep_best l best), out).
Proof.
  revert pre best. induction l as [|r l IH]; intros pre best.
  - reflexivity.
  - cbn [List.length seq for_in fold_left].
    specialize (IH (pre ++ [r]) (keep_best best r)).
    rewrite <- app_assoc in IH. cbn [app] in IH.
    rewrite length_app in IH. cbn [List.length] in IH.
    replace (List.length pre + 1)%nat with (S (List.length pre)) in IH by lia.
    destruct best as [bestVert bestScore].
    unfold bind at 1. unfold bind at 1.
    rewrite (getitem_pagerank _ _ r) by apply nth_error_middle.
    unfold keep_best in *. cbn [snd] in *.
    destruct (SFltb bestScore (pagerank r)).
    + unfold bind at 1.
      rewrite (getitem_pagerank _ _ r) by apply nth_error_middle.
      unfold bind at 1.
      rewrite (getitem_vertex _ _ r) by apply nth_error_middle.
      cbn [ret]. exact IH.
    + cbn [ret]. exact IH.
Qed.

(** The loop of cell 12 on a table with a first row: a left fold of
    [keep_best] from that row; nothing is printed and nothing is raised. *)
Lemma inline_max_scan_run (r0 : row) (rest : DataFrame) (out : stdout) :
  inline_max_scan (r0 :: rest) out
  = (inr (fold_left keep_best (r0 :: rest) (vertex r0, pagerank r0)), out).
Proof.
  unfold inline_max_scan, range, len.
  unfold bind at 1. rewrite (getitem_pagerank _ _ r0) by reflexivity.
  unfold bind at 1. rewrite (getitem_vertex _ _ r0) by reflexivity.
  exact (scan_loop (r0 :: rest) [] (vertex r0, pagerank r0) out).
Qed.

Lemma inline_max_scan_empty (out : stdout) :
  inline_max_scan [] out = (inl IndexError, out).
Proof. reflexivity. Qed.

Section PrintingRuns.

Variable str_float : spec_float -> string.

Lemma print_loop (l pre : DataFrame) (out : stdout) :
  for_in (seq (List.length pre) (List.length l))
    (fun i _ =>
       v <- getitem (col_vertex (pre ++ l)) i ;;
       s <- getitem (col_pagerank (pre ++ l)) i ;;
       print (best_vertex_line str_float v s))
    tt out
  = (inr tt, out ++ map (line_of str_float) l).
Proof.
  revert pre out. induction l as [|r l IH]; intros pre out.
  - cbn. now rewrite app_nil_r.
  - cbn [List.length seq for_in map].
    specialize (IH (pre ++ [r]) (out ++ [line_of str_float r])).
    rewrite <- !app_assoc in IH. cbn [app] in IH.
    rewrite length_app in IH. cbn [List.length] in IH.
    replace (List.length pre + 1)%nat with (S (List.length pre)) in IH by lia.
    unfold bind at 1. unfold bind at 1.
    rewrite (getitem_vertex _ _ r) by apply nth_error_middle.
    unfold bind at 1.
    rewrite (getitem_pagerank _ _ r) by apply nth_error_middle.
    unfold print at 1. exact IH.
Qed.

(** The reporter prints one line per row of the filtered table, in the
    order of that table, and raises nothing. *)
Lemma print_pagerank_threshold_run (df : DataFrame) (t : spec_float)
  (out : stdout) :
  print_pagerank_threshold str_float df t out
  = (inr tt, out ++ map (line_of str_float) (query_ge df t)).
Proof.
  unfold print_pagerank_threshold, range, len.
  exact (print_loop (query_ge df t) [] out).
Qed.

End PrintingRuns.

(** ** The first row of the greatest score *)

Lemma keep_best_fixed (l : DataFrame) (best : Z * spec_float) :
  (forall r, In r l -> SFleb (pagerank r) (snd best) = true) ->
  fold_left keep_best l best = best.
Proof.
  induction l as [|r l IH]; intros H; cbn [fold_left]; [reflexivity|].
  assert (E : keep_best best r = best).
  { unfold keep_best.
    rewrite (FloatOrderFacts.SFleb_ltb_false (snd best) (pagerank r));
      [reflexivity | apply H; now left]. }
  rewrite E. apply IH. intros r' Hr'. apply H. now right.
Qed.

Lemma keep_best_below (l : DataFrame) (best : Z * spec_float) (m : spec_float) :
  SFltb (snd best) m = true ->
  (forall r, In r l -> SFltb (pagerank r) m = true) ->
  SFltb (snd (fold_left keep_best l best)) m = true.
Proof.
  revert best. induction l as [|r l IH]; intros best Hb H; cbn [fold_left].
  - exact Hb.
  - apply IH.
    + unfold keep_best. destruct (SFltb (snd best) (pagerank r)).
      * cbn [snd]. apply H. now left.
      * exact Hb.
    + intros r' Hr'. apply H. now right.
Qed.

Lemma first_max_split (df : DataFrame) (i : nat) (r : row) :
  first_max df i r ->
  exists pre post,
    df = pre ++ r :: post /\ List.length pre = i /\
    (forall r', In r' pre -> SFltb (pagerank r') (pagerank r) = true) /\
    (forall r', In r' (r :: post) -> SFleb (pagerank r') (pagerank r) = true).
Proof.
  intros (Hi & Hle & Hlt).
  destruct (nth_error_split df i Hi) as (pre & post & -> & Hlen).
  exists pre, post. repeat split; auto.
  - intros r' Hr'. destruct (In_nth_error _ _ Hr') as [j Hj].
    assert (Hjlt : (j < List.length pre)%nat)
      by (apply nth_error_Some; rewrite Hj; discriminate).
    apply (Hlt j); [lia|].
    rewrite nth_error_app1 by exact Hjlt. exact Hj.
  - intros r' Hr'. apply Hle. apply in_or_app. now right.
Qed.

(** The fold of the loop stops on the first row of the greatest score. *)
Lemma keep_best_first_max (r0 : row) (rest : DataFrame) (i : nat) (r : row) :
  first_max (r0 :: rest) i r ->
  fold_left keep_best (r0 :: rest) (vertex r0, pagerank r0)
  = (vertex r, pagerank r).
Proof.
  intros H. destruct (first_max_split _ _ _ H) as (pre & post & E & _ & Hpre & Hpost).
  rewrite E, fold_left_app.
  set (best := fold_left keep_best pre (vertex r0, pagerank r0)).
  cbn [fold_left].
  assert (Er : keep_best best r = (vertex r, pagerank r)).
  { subst best. destruct pre as [|p pre].
    - cbn in E. injection E as -> _. cbn [fold_left].
      unfold keep_best. cbn [snd]. now rewrite FloatOrderFacts.SFltb_irrefl.
    - cbn in E. injection E as -> _.
      unfold keep_best at 1.
      rewrite keep_best_below; [reflexivity | | exact Hpre].
      cbn [snd]. apply Hpre. now left. }
  rewrite Er. apply keep_best_fixed. intros r' Hr'. cbn [snd].
  apply Hpost. now right.
Qed.

Lemma first_max_tail (x : row) (df : DataFrame) (i : nat) (r : row) :
  first_max (x :: df) (S i) r ->
  first_max df i r /\ SFltb (pagerank x) (pagerank r) = true.
Proof.
  intros (Hi & Hle & Hlt). split; [repeat split|].
  - exact Hi.
  - intros r' Hr'. apply Hle. now right.
  - intros j r' Hj Hn. apply (Hlt (S j)); [lia | exact Hn].
  - apply (Hlt 0%nat); [lia | reflexivity].
Qed.

(** A table with a row and without NaN has a first row of greatest score. *)
Lemma first_max_exists (df : DataFrame) :
  df <> [] -> nan_free df -> exists i r, first_max df i r.
Proof.
  induction df as [|x df IH]; intros Hne Hnan; [congruence|].
  inversion Hnan as [|? ? Hx Hdf]; subst.
  destruct df as [|y df].
  - exists 0%nat, x. repeat split.
    + intros r' [<-|[]]. now apply FloatOrderFacts.SFleb_refl.
    + intros j r' Hj. lia.
  - destruct (IH ltac:(discriminate) Hdf) as (i & r & Hi & Hle & Hlt).
    destruct (SFltb (pagerank x) (pagerank r)) eqn:E.
    + exists (S i), r. repeat split.
      * exact Hi.
      * intros r' [<-|Hr']; [now apply FloatOrderFacts.SFltb_leb | now apply Hle].
      * intros [|j] r' Hj Hn.
        -- cbn in Hn. injection Hn as <-. exact E.
        -- apply (Hlt j); [lia | exact Hn].
    + assert (Hr : FloatOrder.number (pagerank r)).
      { apply nth_error_In in Hi.
        pose proof (proj1 (Forall_forall _ _) Hdf r Hi) as Hn. exact Hn. }
      assert (Hrx : SFleb (pagerank r) (pagerank x) = true)
        by now apply FloatOrderFacts.SFltb_false_leb.
      exists 0%nat, x. repeat split.
      * intros r' [<-|Hr']; [now apply FloatOrderFacts.SFleb_refl|].
        apply FloatOrderFacts.SFleb_trans with (pagerank r); [now apply Hle | exact Hrx].
      * intros j r' Hj. lia.
Qed.

(** ** The declarative side: [.max()] and [sort_values] *)

Lemma series_max_In (s : list spec_float) (m : spec_float) :
  series_max s = Some m -> In m s.
Proof.
  revert m. induction s as [|x s IH]; intros m; cbn; [discriminate|].
  destruct (series_max s) as [m'|].
  - intros [= <-]. destruct (SFltb x m'); [right; now apply IH | now left].
  - intros [= <-]. now left.
Qed.

Lemma pr_max_first_max (df : DataFrame) (i : nat) (r : row) :
  first_max df i r -> pr_max df = Some (pagerank r).
Proof.
  unfold pr_max, col_pagerank.
  revert i. induction df as [|x df IH]; intros i H.
  - destruct H as (Hi & _). destruct i; discriminate.
  - cbn [map series_max]. destruct i as [|i].
    + destruct H as (Hi & Hle & _). cbn in Hi. injection Hi as ->.
      destruct (series_max (map pagerank df)) as [m|] eqn:E; [|reflexivity].
      apply series_max_In, in_map_iff in E. destruct E as (r' & <- & Hr').
      rewrite (FloatOrderFacts.SFleb_ltb_false (pagerank r) (pagerank r'));
        [reflexivity | apply Hle; now right].
    + apply first_max_tail in H. destruct H as [H Hx].
      rewrite (IH i H), Hx. reflexivity.
Qed.

Lemma insert_desc_perm (r : row) (l : DataFrame) :
  Permutation (r :: l) (insert_desc r l).
Proof.
  induction l as [|r' l IH]; cbn; [reflexivity|].
  destruct (SFltb (pagerank r) (pagerank r')); [|reflexivity].
  rewrite perm_swap. now apply perm_skip.
Qed.

Lemma sort_values_desc_perm (df : DataFrame) :
  Permutation df (sort_values_desc df).
Proof.
  induction df as [|r df IH]; cbn; [constructor|].
  rewrite <- insert_desc_perm. now apply perm_skip.
Qed.

Lemma insert_desc_sorted (r : row) (l : DataFrame) :
  FloatOrder.number (pagerank r) -> nan_free l ->
  Sorted desc_score l -> Sorted desc_score (insert_desc r l).
Proof.
  intros Hr Hl Hs. induction l as [|r' l IH]; cbn.
  - repeat constructor.
  - inversion Hl as [|? ? Hr' Hl']; subst.
    inversion Hs as [|? ? Hs' Hhd]; subst.
    destruct (SFltb (pagerank r) (pagerank r')) eqn:E.
    + constructor; [now apply IH|].
      destruct l as [|r'' l]; cbn.
      * constructor. now apply FloatOrderFacts.SFltb_leb.
      * destruct (SFltb (pagerank r) (pagerank r'')).
        -- constructor. now inversion Hhd.
        -- constructor. now apply FloatOrderFacts.SFltb_leb.
    + constructor; [exact Hs|]. constructor.
      now apply FloatOrderFacts.SFltb_false_leb.
Qed.

Lemma nan_free_perm (df df' : DataFrame) :
  Permutation df df' -> nan_free df -> nan_free df'.
Proof. intros P. unfold nan_free. now apply Permutation_Forall. Qed.

Lemma sort_values_desc_sorted (df : DataFrame) :
  nan_free df -> Sorted desc_score (sort_values_desc df).
Proof.
  induction df as [|r df IH]; intros H; cbn; [constructor|].
  inversion H as [|? ? Hr Hdf]; subst.
  apply insert_desc_sorted; auto.
  exact (nan_free_perm _ _ (sort_values_desc_perm df) Hdf).
Qed.

(** The sort by insertion puts the first row of greatest score on top. *)
Lemma sort_pr_first_max (df : DataFrame) (i : nat) (r : row) :
  first_max df i r -> exists rest, sort_pr df = r :: rest.
Proof.
  unfold sort_pr. revert i. induction df as [|x df IH]; intros i H.
  - destruct H as (Hi & _). destruct i; discriminate.
  - cbn [sort_values_desc]. destruct i as [|i].
    + destruct H as (Hi & Hle & _). cbn in Hi. injection Hi as ->.
      destruct (sort_values_desc df) as [|y l] eqn:E; cbn; [now exists []|].
      assert (Hy : In y df).
      { apply (Permutation_in y (Permutation_sym (sort_values_desc_perm df))).
        rewrite E. now left. }
      rewrite (FloatOrderFacts.SFleb_ltb_false (pagerank r) (pagerank y));
        [now eexists | apply Hle; now right].
    + apply first_max_tail in H. destruct H as [H Hx].
      destruct (IH i H) as [rest ->]. cbn. rewrite Hx. now eexists.
Qed.

#[local] Instance desc_score_trans : RelationClasses.Transitive desc_score.
Proof.
  intros a b c Hab Hbc. unfold desc_score in *.
  now apply FloatOrderFacts.SFleb_trans with (pagerank b).
Qed.

#[local] Instance reporter_order_trans : RelationClasses.Transitive reporter_order.
Proof.
  intros a b c. unfold reporter_order.
  intros [Hab|[Hab Vab]] [Hbc|[Hbc Vbc]].
  - left. FloatOrderFacts.float_order.
  - left. FloatOrderFacts.float_order.
  - left. FloatOrderFacts.float_order.
  - right. split; [FloatOrderFacts.float_order | lia].
Qed.

(** Any arrangement of the table by descending score starts with a row
    whose score compares equal to the greatest one. *)
Lemma sorted_head_first_max (df df' : DataFrame) (i : nat) (r : row) :
  first_max df i r -> Permutation df df' -> Sorted desc_score df' ->
  exists r0 rest, df' = r0 :: rest /\ SFeqb (pagerank r0) (pagerank r) = true.
Proof.
  intros (Hi & Hle & _) P S.
  apply nth_error_In in Hi.
  destruct df' as [|r0 rest].
  - apply Permutation_sym, Permutation_nil in P. subst. contradiction.
  - exists r0, rest. split; [reflexivity|].
    apply FloatOrderFacts.SFeqb_leb. split.
    + apply Hle. apply (Permutation_in r0 (Permutation_sym P)). now left.
    + apply Sorted_StronglySorted in S; [|exact desc_score_trans].
      inversion S as [|? ? _ Hall]; subst.
      pose proof (Permutation_in r P Hi) as [<-|Hr].
      * apply FloatOrderFacts.SFleb_refl.
        exact (FloatOrderFacts.SFleb_number_l _ _ (Hle _ Hi)).
      * exact (proj1 (Forall_forall _ _) Hall r Hr).
Qed.

Lemma StronglySorted_filter {A} (R : A -> A -> Prop) (f : A -> bool) (l : list A) :
  StronglySorted R l -> StronglySorted R (filter f l).
Proof.
  induction 1 as [|a l Hs IH Hall]; cbn; [constructor|].
  destruct (f a); [|exact IH].
  constructor; [exact IH|].
  apply Forall_forall. intros x Hx. apply filter_In in Hx.
  exact (proj1 (Forall_forall _ _) Hall x (proj1 Hx)).
Qed.

Lemma Sorted_filter {A} (R : A -> A -> Prop) (f : A -> bool) (l : list A) :
  RelationClasses.Transitive R -> Sorted R l -> Sorted R (filter f l).
Proof.
  intros T S. apply StronglySorted_Sorted, StronglySorted_filter.
  now apply Sorted_StronglySorted.
Qed.

(** ** Properties of the cells *)

Lemma pr_max_upper_bound (df : DataFrame) (m : spec_float) :
  nan_free df -> pr_max df = Some m ->
  forall r, In r df -> SFleb (pagerank r) m = true.
Proof.
  intros Hnan Hm.
  assert (Hne : df <> []) by (intros ->; discriminate).
  destruct (first_max_exists df Hne Hnan) as (i & r0 & H0).
  rewrite (pr_max_first_max _ _ _ H0) in Hm. injection Hm as <-.
  exact (proj1 (proj2 H0)).
Qed.

Lemma filter_none {A} (f : A -> bool) (l : list A) :
  (forall x, In x l -> f x = false) -> filter f l = [].
Proof.
  induction l as [|a l IH]; intros H; cbn; [reflexivity|].
  rewrite (H a) by now left. apply IH. intros x Hx. apply H. now right.
Qed.

(** With the greatest score as threshold, and a single row of that score,
    the filter keeps that row alone. *)
Lemma query_ge_unique_max (l1 : DataFrame) (r : row) (l2 : DataFrame)
  (m : spec_float) :
  (forall r', In r' (l1 ++ r :: l2) -> SFleb (pagerank r') m = true) ->
  SFeqb (pagerank r) m = true ->
  (forall r', In r' (l1 ++ l2) -> SFeqb (pagerank r') m = false) ->
  query_ge (l1 ++ r :: l2) m = [r].
Proof.
  intros Hle Hr Hne. unfold query_ge.
  assert (Hout : forall r', In r' (l1 ++ l2) -> SFleb m (pagerank r') = false).
  { intros r' Hr'. destruct (SFleb m (pagerank r')) eqn:E; [|reflexivity].
    assert (Hin : In r' (l1 ++ r :: l2)).
    { apply in_app_or in Hr'. apply in_or_app. destruct Hr'; [now left|].
      right. now right. }
    rewrite <- (Hne r' Hr'). symmetry. apply FloatOrderFacts.SFeqb_leb.
    split; [now apply Hle | exact E]. }
  rewrite filter_app. cbn [filter].
  rewrite (filter_none _ l1), (filter_none _ l2).
  - apply FloatOrderFacts.SFeqb_leb in Hr. now rewrite (proj2 Hr).
  - intros x Hx. apply Hout. apply in_or_app. now right.
  - intros x Hx. apply Hout. apply in_or_app. now left.
Qed.

(** C9.  The loop that finds the best vertex needs a table with at least
    one row.  On the empty table the reads of row 0 raise [IndexError] and
    so does the cell, which yields no best vertex; on a table with a row
    both reads succeed and the cell returns a pair without raising. *)
Theorem inline_max_scan_needs_a_row :
  (forall out,
      getitem (col_pagerank []) 0 out = (inl IndexError, out) /\
      getitem (col_vertex []) 0 out = (inl IndexError, out) /\
      inline_max_scan [] out = (inl IndexError, out)) /\
  (forall df out, df <> [] ->
      exists bestVert bestScore best,
        getitem (col_pagerank df) 0 out = (inr bestScore, out) /\
        getitem (col_vertex df) 0 out = (inr bestVert, out) /\
        inline_max_scan df out = (inr best, out)).
Proof.
  split.
  - intros out. split; [|split].
    + now apply getitem_past_end.
    + now apply getitem_past_end.
    + apply inline_max_scan_empty.
  - intros [|r0 rest] out Hne; [congruence|].
    exists (vertex r0), (pagerank r0). eexists. repeat split.
    apply inline_max_scan_run.
Qed.

Lemma inline_max_scan_needs_a_row_witness :
  exists bestVert bestScore best,
    getitem (col_pagerank karate_rows) 0 [] = (inr bestScore, []) /\
    getitem (col_vertex karate_rows) 0 [] = (inr bestVert, []) /\
    inline_max_scan karate_rows [] = (inr best, []).
Proof.
  apply (proj2 inline_max_scan_needs_a_row karate_rows []).
  discriminate.
Defined.

(** C10.  When row [i] is the first row whose score is the greatest of the
    table (whatever rows of the same score follow it), the loop returns the
    vertex and the score of row [i]: a later row of equal score does not
    replace it, the test being a strict [>].  The vertex returned need not
    be the smallest identifier among the rows of greatest score: on
    [tied_rows] it is 34 although vertex 1 has the same score. *)
Theorem inline_max_scan_first_of_the_best :
  (forall df i r out,
      first_max df i r ->
      inline_max_scan df out = (inr (vertex r, pagerank r), out)) /\
  (exists r r',
      inline_max_scan tied_rows [] = (inr (vertex r, pagerank r), []) /\
      In r' tied_rows /\
      SFeqb (pagerank r') (pagerank r) = true /\
      vertex r' < vertex r).
Proof.
  split.
  - intros [|r0 rest] i r out H.
    + destruct H as (Hi & _). destruct i; discriminate.
    + rewrite inline_max_scan_run.
      now rewrite (keep_best_first_max _ _ _ _ H).
  - exists (mkRow 34 (f32 8388608 (-24))), (mkRow 1 (f32 8388608 (-24))).
    split; [reflexivity|]. split; [right; now left|].
    split; reflexivity.
Qed.

Lemma inline_max_scan_first_of_the_best_witness :
  inline_max_scan tied_rows [] = (inr (34, f32 8388608 (-24)), []).
Proof.
  apply (proj1 inline_max_scan_first_of_the_best tied_rows 0%nat
           (mkRow 34 (f32 8388608 (-24))) []).
  repeat split.
  - intros r' [<-|[<-|[]]]; reflexivity.
  - intros j r' Hj. lia.
Defined.

(** C7.  On a table with at least one row, whose scores are numbers, the
    loop computes what the declarative pipeline computes: its [bestScore]
    is the value of [.max()] on the score column and the score of the first
    row of the table sorted by descending score, [bestVert] is the vertex
    of a row of the table that has this score, and no score of the table is
    above it.  Whatever routine sorts the table, the first row of a
    descending arrangement has a score that compares equal to
    [bestScore]. *)
Theorem inline_max_scan_refines_pipeline (df : DataFrame) (out : stdout) :
  df <> [] -> nan_free df ->
  exists bestVert bestScore,
    inline_max_scan df out = (inr (bestVert, bestScore), out) /\
    pr_max df = Some bestScore /\
    (exists r rest, sort_pr df = r :: rest /\ pagerank r = bestScore) /\
    In (mkRow bestVert bestScore) df /\
    (forall r, In r df -> SFleb (pagerank r) bestScore = true) /\
    (forall df', Permutation df df' -> Sorted desc_score df' ->
       exists r rest, df' = r :: rest /\ SFeqb (pagerank r) bestScore = true).
Proof.
  intros Hne Hnan.
  destruct (first_max_exists df Hne Hnan) as (i & r & H).
  exists (vertex r), (pagerank r). repeat split.
  - destruct df as [|r0 rest]; [congruence|].
    rewrite inline_max_scan_run.
    now rewrite (keep_best_first_max _ _ _ _ H).
  - now apply pr_max_first_max with i.
  - destruct (sort_pr_first_max _ _ _ H) as [rest E].
    now exists r, rest.
  - destruct H as (Hi & _). apply nth_error_In in Hi. now destruct r.
  - exact (proj1 (proj2 H)).
  - intros df' P S. exact (sorted_head_first_max _ _ _ _ H P S).
Qed.

Lemma inline_max_scan_refines_pipeline_witness :
  exists bestVert bestScore,
    inline_max_scan karate_rows [] = (inr (bestVert, bestScore), []) /\
    pr_max karate_rows = Some bestScore /\
    (exists r rest, sort_pr karate_rows = r :: rest /\ pagerank r = bestScore) /\
    In (mkRow bestVert bestScore) karate_rows /\
    (forall r, In r karate_rows -> SFleb (pagerank r) bestScore = true) /\
    (forall df', Permutation karate_rows df' -> Sorted desc_score df' ->
       exists r rest, df' = r :: rest /\ SFeqb (pagerank r) bestScore = true).
Proof.
  apply (inline_max_scan_refines_pipeline karate_rows []).
  - discriminate.
  - repeat constructor.
Defined.

Lemma reporter_order_desc_score (r1 r2 : row) :
  reporter_order r1 r2 -> desc_score r1 r2.
Proof.
  unfold reporter_order, desc_score. intros [H|[H _]].
  - now apply FloatOrderFacts.SFltb_leb.
  - apply FloatOrderFacts.SFeqb_leb in H. tauto.
Qed.

Lemma Sorted_weaken {A} (R R' : A -> A -> Prop) (l : list A) :
  (forall a b, R a b -> R' a b) -> Sorted R l -> Sorted R' l.
Proof.
  intros HR. induction 1 as [|a l Hs IH Hhd]; constructor; [exact IH|].
  destruct Hhd; constructor. now apply HR.
Qed.

(** C3.  The reporter prints exactly one line per row whose score is at
    least the threshold, rows below it being left out, and each line reads
    [Best vertex is <id> with score of <value>].  When the threshold is the
    greatest score of the table (as [pr_max] is) and a single row has that
    score, exactly one line is printed, the line of that row. *)
Theorem print_pagerank_threshold_lines
  (str_float : spec_float -> string) (df : DataFrame) (t : spec_float)
  (out : stdout) :
  print_pagerank_threshold str_float df t out
  = (inr tt,
     out ++ map (line_of str_float)
              (filter (fun r => SFleb t (pagerank r)) df)) /\
  (forall r,
      line_of str_float r
      = ("Best vertex is " ++ str_int (vertex r)
           ++ " with score of " ++ str_float (pagerank r))%string) /\
  (forall r,
      In r (filter (fun r => SFleb t (pagerank r)) df) <->
      In r df /\ SFleb t (pagerank r) = true) /\
  (forall l1 r l2,
      df = l1 ++ r :: l2 ->
      (forall r', In r' df -> SFleb (pagerank r') t = true) ->
      SFeqb (pagerank r) t = true ->
      (forall r', In r' (l1 ++ l2) -> SFeqb (pagerank r') t = false) ->
      print_pagerank_threshold str_float df t out
      = (inr tt, out ++ [line_of str_float r])) /\
  (forall l1 r l2,
      df = l1 ++ r :: l2 ->
      nan_free df -> pr_max df = Some t ->
      SFeqb (pagerank r) t = true ->
      (forall r', In r' (l1 ++ l2) -> SFeqb (pagerank r') t = false) ->
      print_pagerank_threshold str_float df t out
      = (inr tt, out ++ [line_of str_float r])).
Proof.
  assert (Hone : forall l1 r l2,
      df = l1 ++ r :: l2 ->
      (forall r', In r' df -> SFleb (pagerank r') t = true) ->
      SFeqb (pagerank r) t = true ->
      (forall r', In r' (l1 ++ l2) -> SFeqb (pagerank r') t = false) ->
      print_pagerank_threshold str_float df t out
      = (inr tt, out ++ [line_of str_float r])).
  { intros l1 r l2 -> Hle Hr Hne.
    rewrite print_pagerank_threshold_run.
    now rewrite (query_ge_unique_max l1 r l2 t Hle Hr Hne). }
  split; [apply print_pagerank_threshold_run|].
  split; [reflexivity|].
  split; [intros r; apply filter_In|].
  split; [exact Hone|].
  intros l1 r l2 E Hnan Hmax Hr Hne.
  apply (Hone l1 r l2 E); auto.
  now apply pr_max_upper_bound.
Qed.

Lemma print_pagerank_threshold_lines_witness :
  print_pagerank_threshold str_blank karate_rows (pagerank row_34) []
  = (inr tt, [] ++ [line_of str_blank row_34]).
Proof.
  apply (proj1 (proj2 (proj2 (proj2
           (print_pagerank_threshold_lines str_blank karate_rows
              (pagerank row_34) []))))
           [row_1; row_33] row_34 []).
  - reflexivity.
  - intros r' [<-|[<-|[<-|[]]]]; reflexivity.
  - reflexivity.
  - intros r' [<-|[<-|[]]]; reflexivity.
Defined.

(** C1, as the code has it.  The reporter prints the rows whose score is
    at least the threshold in the order of the table it is given: it
    filters and does not sort.  So the lines are in the reporter's order
    (descending score, ascending vertex identifier among equal scores)
    whenever the table already is, and then of two adjacent lines the
    earlier has a score [>=] the later. *)
Theorem print_pagerank_threshold_table_order
  (str_float : spec_float -> string) (df : DataFrame) (t : spec_float)
  (out : stdout) :
  print_pagerank_threshold str_float df t out
  = (inr tt,
     out ++ map (line_of str_float)
              (filter (fun r => SFleb t (pagerank r)) df)) /\
  (Sorted reporter_order df ->
   Sorted reporter_order (filter (fun r => SFleb t (pagerank r)) df) /\
   Sorted desc_score (filter (fun r => SFleb t (pagerank r)) df)).
Proof.
  split; [apply print_pagerank_threshold_run|].
  intros S.
  assert (S' : Sorted reporter_order (filter (fun r => SFleb t (pagerank r)) df))
    by (apply Sorted_filter; [exact reporter_order_trans | exact S]).
  split; [exact S'|].
  exact (Sorted_weaken _ _ _ reporter_order_desc_score S').
Qed.

Lemma print_pagerank_threshold_table_order_witness :
  Sorted reporter_order
    (filter (fun r => SFleb (pagerank row_1) (pagerank r))
       [row_34; row_1; row_33]) /\
  Sorted desc_score
    (filter (fun r => SFleb (pagerank row_1) (pagerank r))
       [row_34; row_1; row_33]).
Proof.
  apply (proj2 (print_pagerank_threshold_table_order str_blank
                  [row_34; row_1; row_33] (pagerank row_1) [])).
  repeat (constructor; try (left; reflexivity)).
Defined.

(** C1, as the specification states it, does not hold: on [karate_rows] with the default
    threshold 0 the lines come out for the vertices 1, 33, 34 in this
    order, with the scores 0.096573, 0.071377, 0.10047409, and no
    arrangement by descending score prints those lines. *)
Lemma print_pagerank_threshold_sorted_counterexample :
  ~ (forall (str_float : spec_float -> string) (df : DataFrame)
            (t : spec_float),
        exists rows,
          print_pagerank_threshold str_float df t []
          = (inr tt, map (line_of str_float) rows) /\
          (forall r, In r rows -> In r df /\ SFleb t (pagerank r) = true) /\
          Sorted desc_score rows).
Proof.
  intros H.
  destruct (H str_blank karate_rows zero) as (rows & Hrun & Hin & Hs).
  rewrite print_pagerank_threshold_run in Hrun.
  injection Hrun as Hlines. cbn in Hlines.
  destruct rows as [|a [|b [|c [|d rows]]]]; try discriminate Hlines.
  injection Hlines as Ha Hb Hc.
  assert (Eb : b = row_33).
  { destruct (Hin b) as [[<-|[<-|[<-|[]]]] _];
      [right; now left | discriminate Hb | reflexivity | discriminate Hb]. }
  assert (Ec : c = row_34).
  { destruct (Hin c) as [[<-|[<-|[<-|[]]]] _];
      [right; right; now left | discriminate Hc | discriminate Hc | reflexivity]. }
  subst b c.
  inversion Hs as [|? ? Hs1 _]; subst.
  inversion Hs1 as [|? ? _ Hhd]; subst.
  inversion Hhd as [|? ? Hd]; subst.
  unfold desc_score in Hd. discriminate Hd.
Qed.

(** ** The cells on the rows the notebook shows *)

(** The scores of the examples are binary32 values. *)
Example example_scores_binary32 :
  forallb (fun r => valid_binary 24 128 (pagerank r)) (karate_rows ++ tied_rows)
  = true.
Proof. reflexivity. Qed.

(** Cell 12 prints the line of vertex 34, as in the notebook. *)
Example best_vertex_cell_karate :
  best_vertex_cell str_blank karate_rows []
  = (inr (34, f32 13485404 (-27)), ["Best vertex is 34 with score of "%string]).
Proof. reflexivity. Qed.

(** Cell 15, [print_pagerank_threshold(gdf_page, pr_max)], prints the same
    single line. *)
Example print_pagerank_threshold_karate :
  pr_max karate_rows = Some (pagerank row_34) /\
  print_pagerank_threshold str_blank karate_rows (pagerank row_34) []
  = (inr tt, ["Best vertex is 34 with score of "%string]).
Proof. split; reflexivity. Qed.

(** Cell 16 puts the vertices 34, 1, 33 on top, as the notebook shows. *)
Example sort_pr_karate : sort_pr karate_rows = [row_34; row_1; row_33].
Proof. reflexivity. Qed.

(** A NaN in row 0 is never replaced, no comparison with it being true:
    this is why the comparison with [.max()] is stated for tables of
    numbers. *)
Example inline_max_scan_nan_row :
  inline_max_scan [mkRow 1 S754_nan; mkRow 2 (f32 8388608 (-24))] []
  = (inr (1, S754_nan), []).
Proof. reflexivity. Qed.

(** * Further properties of the cells *)

(** ** The loop of cell 12 on any table *)

Lemma SFltb_trans (x y z : spec_float) :
  SFltb x y = true -> SFltb y z = true -> SFltb x z = true.
Proof. intros; FloatOrderFacts.float_order. Qed.

Lemma keep_best_from (l : DataFrame) (best : Z * spec_float) :
  fold_left keep_best l best = best \/
  exists r, In r l /\ fold_left keep_best l best = (vertex r, pagerank r).
Proof.
  revert best. induction l as [|r l IH]; intros best; cbn [fold_left].
  - now left.
  - destruct (IH (keep_best best r)) as [E|(r' & Hr' & E)].
    + rewrite E. unfold keep_best.
      destruct (SFltb (snd best) (pagerank r)); [right | now left].
      exists r. split; [now left | reflexivity].
    + right. exists r'. split; [now right | exact E].
Qed.

Lemma keep_best_none_above (l seen : DataFrame) (best : Z * spec_float) :
  (forall r, In r seen -> SFltb (snd best) (pagerank r) = false) ->
  forall r, In r (seen ++ l) ->
            SFltb (snd (fold_left keep_best l best)) (pagerank r) = false.
Proof.
  revert seen best. induction l as [|x l IH]; intros seen best Hseen r Hr.
  - rewrite app_nil_r in Hr. now apply Hseen.
  - cbn [fold_left]. apply (IH (seen ++ [x])).
    + intros y Hy. apply in_app_or in Hy. unfold keep_best.
      destruct (SFltb (snd best) (pagerank x)) eqn:E; cbn [snd].
      * destruct Hy as [Hy|[<-|[]]]; [|apply FloatOrderFacts.SFltb_irrefl].
        destruct (SFltb (pagerank x) (pagerank y)) eqn:E'; [|reflexivity].
        rewrite <- (Hseen y Hy). symmetry.
        now apply SFltb_trans with (pagerank x).
      * destruct Hy as [Hy|[<-|[]]]; [now apply Hseen | exact E].
    + rewrite <- app_assoc. exact Hr.
Qed.

Lemma keep_best_kept (l : DataFrame) (best : Z * spec_float) :
  (forall r, In r l -> SFltb (snd best) (pagerank r) = false) ->
  fold_left keep_best l best = best.
Proof.
  induction l as [|r l IH]; intros H; cbn [fold_left]; [reflexivity|].
  assert (E : keep_best best r = best)
    by (unfold keep_best; now rewrite (H r (or_introl eq_refl))).
  rewrite E. apply IH. intros r' Hr'. apply H. now right.
Qed.

(** X3.  On every table with a row, NaN scores included, the loop returns
    the vertex and the score of one and the same row of the table, and no
    score of the table is strictly greater than the score returned. *)
Theorem inline_max_scan_row_none_above (df : DataFrame) (out : stdout) :
  df <> [] ->
  exists bestVert bestScore,
    inline_max_scan df out = (inr (bestVert, bestScore), out) /\
    In (mkRow bestVert bestScore) df /\
    (forall r, In r df -> SFltb bestScore (pagerank r) = false).
Proof.
  destruct df as [|r0 rest]; intros Hne; [congruence|].
  set (best := fold_left keep_best (r0 :: rest) (vertex r0, pagerank r0)).
  exists (fst best), (snd best). split; [|split].
  - rewrite inline_max_scan_run. fold best. now destruct best.
  - destruct (keep_best_from (r0 :: rest) (vertex r0, pagerank r0))
      as [E|(r & Hr & E)]; fold best in E; rewrite E; cbn [fst snd].
    + left. now destruct r0.
    + destruct r. exact Hr.
  - intros r Hr. subst best.
    apply (keep_best_none_above (r0 :: rest) []); [intros ? []|exact Hr].
Qed.

Lemma inline_max_scan_row_none_above_witness :
  exists bestVert bestScore,
    inline_max_scan karate_rows [] = (inr (bestVert, bestScore), []) /\
    In (mkRow bestVert bestScore) karate_rows /\
    (forall r, In r karate_rows -> SFltb bestScore (pagerank r) = false).
Proof.
  apply (inline_max_scan_row_none_above karate_rows []). discriminate.
Defined.

(** X4.  Rows added at the end of the table whose scores are not greater
    than the score found leave the result of the loop unchanged. *)
Theorem inline_max_scan_app_kept (df more : DataFrame)
  (best : Z * spec_float) (out : stdout) :
  inline_max_scan df out = (inr best, out) ->
  (forall r, In r more -> SFltb (snd best) (pagerank r) = false) ->
  inline_max_scan (df ++ more) out = (inr best, out).
Proof.
  destruct df as [|r0 rest]; intros Hrun Hmore; [discriminate|].
  rewrite inline_max_scan_run in Hrun.
  assert (Hbest : fold_left keep_best (r0 :: rest) (vertex r0, pagerank r0)
                  = best) by congruence.
  clear Hrun.
  change ((r0 :: rest) ++ more) with (r0 :: (rest ++ more)).
  rewrite inline_max_scan_run.
  change (r0 :: rest ++ more) with ((r0 :: rest) ++ more).
  rewrite fold_left_app, Hbest.
  now rewrite keep_best_kept.
Qed.

Lemma inline_max_scan_app_kept_witness :
  inline_max_scan (karate_rows ++ [row_33; row_34]) []
  = (inr (34, f32 13485404 (-27)), []).
Proof.
  apply (inline_max_scan_app_kept karate_rows [row_33; row_34]
           (34, f32 13485404 (-27)) []).
  - reflexivity.
  - intros r [<-|[<-|[]]]; reflexivity.
Defined.

Section CellRuns.

Variable str_float : spec_float -> string.

(** X1.  Cell 12 as a whole.  On a table with a row it raises nothing,
    returns what the loop found and adds exactly one line to the printed
    text, the line of a row of the table; on the empty table it raises
    [IndexError] and prints nothing. *)
Theorem best_vertex_cell_one_line :
  (forall out, best_vertex_cell str_float [] out = (inl IndexError, out)) /\
  (forall df out, df <> [] ->
     exists r,
       In r df /\
       inline_max_scan df out = (inr (vertex r, pagerank r), out) /\
       best_vertex_cell str_float df out
       = (inr (vertex r, pagerank r), out ++ [line_of str_float r])).
Proof.
  split; [reflexivity|].
  intros df out Hne.
  destruct (inline_max_scan_row_none_above df out Hne)
    as (v & s & Hrun & Hin & _).
  exists (mkRow v s). split; [exact Hin|]. split; [exact Hrun|].
  unfold best_vertex_cell, bind. rewrite Hrun. reflexivity.
Qed.

End CellRuns.

Lemma best_vertex_cell_one_line_witness :
  exists r,
    In r karate_rows /\
    inline_max_scan karate_rows [] = (inr (vertex r, pagerank r), []) /\
    best_vertex_cell str_blank karate_rows []
    = (inr (vertex r, pagerank r), [] ++ [line_of str_blank r]).
Proof.
  apply (proj2 (best_vertex_cell_one_line str_blank) karate_rows []).
  discriminate.
Defined.

(** ** The reporter of cell 14 *)

Lemma query_ge_app (df df' : DataFrame) (t : spec_float) :
  query_ge (df ++ df') t = query_ge df t ++ query_ge df' t.
Proof. unfold query_ge. apply filter_app. Qed.

Lemma query_ge_query_ge (df : DataFrame) (t1 t2 : spec_float) :
  SFleb t1 t2 = true -> query_ge (query_ge df t1) t2 = query_ge df t2.
Proof.
  intros H. unfold query_ge. induction df as [|r df IH]; cbn; [reflexivity|].
  destruct (SFleb t2 (pagerank r)) eqn:E2.
  - rewrite (FloatOrderFacts.SFleb_trans t1 t2 (pagerank r) H E2).
    cbn. rewrite E2. now f_equal.
  - destruct (SFleb t1 (pagerank r)); [cbn; rewrite E2|]; exact IH.
Qed.

Lemma filter_length_all {A} (f : A -> bool) (l : list A) :
  (List.length (filter f l) <= List.length l)%nat /\
  (List.length (filter f l) = List.length l <->
   forall x, In x l -> f x = true).
Proof.
  induction l as [|a l [IHle IHeq]]; cbn.
  - split; [lia|]. split; [intros _ x [] | reflexivity].
  - destruct (f a) eqn:E; cbn; split; try lia.
    + split.
      * intros H x [<-|Hx]; [exact E|]. apply IHeq; [lia | exact Hx].
      * intros H. f_equal. apply IHeq. intros x Hx. apply H. now right.
    + split; [lia|]. intros H. rewrite (H a) in E by now left. discriminate.
Qed.

Section ReporterRuns.

Variable str_float : spec_float -> string.

(** X2.  Cells 12 and 15 agree.  On a table with a row, whose scores are
    numbers, the table splits at the row [r] the loop returns: the rows
    before it have strictly smaller scores and are not printed, and
    [print_pagerank_threshold] called with [pr_max] prints the line cell 12
    prints, for [r], followed by the lines of exactly those later rows
    whose score compares equal to the maximum, in table order. *)
Theorem print_pagerank_threshold_at_pr_max (df : DataFrame) (out : stdout) :
  df <> [] -> nan_free df ->
  exists before r later,
    df = before ++ r :: later /\
    (forall r', In r' before ->
                SFltb (pagerank r') (pagerank r) = true) /\
    inline_max_scan df out = (inr (vertex r, pagerank r), out) /\
    pr_max df = Some (pagerank r) /\
    print_pagerank_threshold str_float df (pagerank r) out
    = (inr tt,
       out ++ best_vertex_line str_float (vertex r) (pagerank r)
           :: map (line_of str_float)
                (filter (fun r' => SFeqb (pagerank r') (pagerank r)) later)).
Proof.
  intros Hne Hnan.
  destruct (first_max_exists df Hne Hnan) as (i & r & H).
  destruct (first_max_split _ _ _ H) as (pre & post & E & _ & Hpre & Hpost).
  exists pre, r, post.
  split; [exact E|]. split; [exact Hpre|]. split; [|split].
  - destruct df as [|r0 df0]; [congruence|].
    rewrite inline_max_scan_run.
    now rewrite (keep_best_first_max _ _ _ _ H).
  - now apply pr_max_first_max with i.
  - rewrite print_pagerank_threshold_run. do 2 f_equal.
    rewrite E, query_ge_app. unfold query_ge at 1.
    rewrite filter_none.
    + cbn. unfold query_ge. cbn [filter].
      rewrite FloatOrderFacts.SFleb_refl.
      * cbn [map]. unfold line_of at 1. do 2 f_equal.
        apply filter_ext_in. intros r' Hr'.
        assert (Hle : SFleb (pagerank r') (pagerank r) = true)
          by (apply Hpost; now right).
        destruct (SFeqb (pagerank r') (pagerank r)) eqn:Eq.
        -- apply FloatOrderFacts.SFeqb_leb in Eq. tauto.
        -- destruct (SFleb (pagerank r) (pagerank r')) eqn:Ege;
             [|reflexivity].
           rewrite <- Eq. symmetry. apply FloatOrderFacts.SFeqb_leb.
           now split.
      * apply (FloatOrderFacts.SFleb_number_l _ (pagerank r)).
        apply Hpost. now left.
    + intros x Hx. apply FloatOrderFacts.SFltb_leb_false. now apply Hpre.
Qed.

(** X5.  A row whose score is NaN is never printed: the reporter prints
    the same lines when such rows are taken out of the table.  With NaN as
    threshold it prints nothing at all. *)
Theorem print_pagerank_threshold_nan (df : DataFrame) (t : spec_float)
  (out : stdout) :
  print_pagerank_threshold str_float
    (filter (fun r => negb (FloatOrder.is_nan (pagerank r))) df) t out
  = print_pagerank_threshold str_float df t out /\
  print_pagerank_threshold str_float df S754_nan out = (inr tt, out).
Proof.
  split.
  - rewrite !print_pagerank_threshold_run. do 3 f_equal.
    unfold query_ge. induction df as [|r df IH]; cbn; [reflexivity|].
    destruct (pagerank r) eqn:Er; cbn; rewrite ?Er; rewrite IH; try reflexivity.
    now destruct t.
  - rewrite print_pagerank_threshold_run. unfold query_ge.
    rewrite filter_none; [now rewrite app_nil_r|].
    intros r _. reflexivity.
Qed.

(** X6.  Raising the threshold only removes lines: for [t1 <= t2] the
    lines printed at [t2] are those the reporter prints at [t2] from the
    table already filtered at [t1], each of them is a line printed at [t1],
    and they are no more numerous. *)
Theorem print_pagerank_threshold_raise (df : DataFrame) (t1 t2 : spec_float)
  (out : stdout) :
  SFleb t1 t2 = true ->
  print_pagerank_threshold str_float (query_ge df t1) t2 out
  = print_pagerank_threshold str_float df t2 out /\
  exists lines1 lines2,
    print_pagerank_threshold str_float df t1 out = (inr tt, out ++ lines1) /\
    print_pagerank_threshold str_float df t2 out = (inr tt, out ++ lines2) /\
    incl lines2 lines1 /\
    (List.length lines2 <= List.length lines1)%nat.
Proof.
  intros H. split.
  - rewrite !print_pagerank_threshold_run. now rewrite query_ge_query_ge.
  - exists (map (line_of str_float) (query_ge df t1)),
      (map (line_of str_float) (query_ge df t2)).
    rewrite !print_pagerank_threshold_run. repeat split.
    + rewrite <- (query_ge_query_ge df t1 t2 H).
      intros l Hl. apply in_map_iff in Hl. destruct Hl as (r & <- & Hr).
      apply in_map. apply filter_In in Hr. tauto.
    + rewrite !length_map, <- (query_ge_query_ge df t1 t2 H).
      apply filter_length_all.
Qed.

(** X7.  Reporting a table made of two parts prints what reporting the
    first part and then the second prints. *)
Theorem print_pagerank_threshold_app (df df' : DataFrame) (t : spec_float)
  (out : stdout) :
  print_pagerank_threshold str_float (df ++ df') t out
  = (print_pagerank_threshold str_float df t ;;;
     print_pagerank_threshold str_float df' t) out.
Proof.
  unfold bind. rewrite !print_pagerank_threshold_run.
  now rewrite query_ge_app, map_app, app_assoc.
Qed.

(** X8.  The reporter prints at most one line per row of the table, and
    as many lines as there are rows exactly when every score is at least
    the threshold; so the call with the default threshold 0 prints the line
    of every row of a table whose scores are all [>= 0]. *)
Theorem print_pagerank_threshold_count (df : DataFrame) (t : spec_float)
  (out : stdout) :
  (exists lines,
     print_pagerank_threshold str_float df t out = (inr tt, out ++ lines) /\
     (List.length lines <= len df)%nat /\
     (List.length lines = len df <->
      forall r, In r df -> SFleb t (pagerank r) = true)) /\
  ((forall r, In r df -> SFleb zero (pagerank r) = true) ->
   print_pagerank_threshold_default str_float df out
   = (inr tt, out ++ map (line_of str_float) df)).
Proof.
  split.
  - exists (map (line_of str_float) (query_ge df t)).
    rewrite print_pagerank_threshold_run, length_map. unfold query_ge, len.
    split; [reflexivity|]. apply filter_length_all.
  - intros H. unfold print_pagerank_threshold_default.
    rewrite print_pagerank_threshold_run. do 3 f_equal.
    unfold query_ge. induction df as [|r df IH]; cbn; [reflexivity|].
    rewrite (H r) by now left. f_equal. apply IH.
    intros r' Hr'. apply H. now right.
Qed.

End ReporterRuns.

Lemma print_pagerank_threshold_at_pr_max_witness :
  exists before r later,
    tied_rows = before ++ r :: later /\
    (forall r', In r' before ->
                SFltb (pagerank r') (pagerank r) = true) /\
    inline_max_scan tied_rows [] = (inr (vertex r, pagerank r), []) /\
    pr_max tied_rows = Some (pagerank r) /\
    print_pagerank_threshold str_blank tied_rows (pagerank r) []
    = (inr tt,
       [] ++ best_vertex_line str_blank (vertex r) (pagerank r)
          :: map (line_of str_blank)
               (filter (fun r' => SFeqb (pagerank r') (pagerank r)) later)).
Proof.
  apply (print_pagerank_threshold_at_pr_max str_blank tied_rows []).
  - discriminate.
  - repeat constructor.
Defined.

Lemma print_pagerank_threshold_raise_witness :
  print_pagerank_threshold str_blank
    (query_ge karate_rows (pagerank row_33)) (pagerank row_1) []
  = print_pagerank_threshold str_blank karate_rows (pagerank row_1) [].
Proof.
  apply (proj1 (print_pagerank_threshold_raise str_blank karate_rows
                  (pagerank row_33) (pagerank row_1) [] eq_refl)).
Defined.

Lemma print_pagerank_threshold_count_witness :
  print_pagerank_threshold_default str_blank karate_rows []
  = (inr tt, [] ++ map (line_of str_blank) karate_rows).
Proof.
  apply (proj2 (print_pagerank_threshold_count str_blank karate_rows zero [])).
  intros r [<-|[<-|[<-|[]]]]; reflexivity.
Defined.

(** ** The printed line names its vertex *)

Lemma before_blank_digits (d : Decimal.uint) (s : string) :
  before_blank (NilEmpty.string_of_uint d ++ String " " s)
  = NilEmpty.string_of_uint d.
Proof.
  induction d; cbn; [reflexivity | now f_equal ..].
Qed.

Lemma before_blank_str_int (z : Z) (s : string) :
  before_blank (str_int z ++ String " " s) = str_int z.
Proof.
  unfold str_int, NilZero.string_of_int, NilZero.string_of_uint.
  destruct (Z.to_int z) as [d|d]; destruct d;
    try reflexivity;
    try (rewrite before_blank_digits; reflexivity);
    cbn; now rewrite before_blank_digits.
Qed.

Lemma int_of_string_str_int (z : Z) :
  NilZero.int_of_string (str_int z) = Some (Z.to_int z).
Proof.
  unfold str_int. apply NilZero.isi; destruct z; cbn; try discriminate;
    intros [= H]; now apply (Unsigned.to_uint_nonnil p).
Qed.

(** X12.  A printed line names its vertex, whatever the rendering of the
    score: reading back the integer that follows ["Best vertex is "] gives
    the vertex identifier, so two equal lines are lines of the same
    vertex. *)
Theorem best_vertex_line_names_vertex (str_float : spec_float -> string) :
  (forall v s, vertex_of_line (best_vertex_line str_float v s) = Some v) /\
  (forall v1 s1 v2 s2,
      best_vertex_line str_float v1 s1 = best_vertex_line str_float v2 s2 ->
      v1 = v2).
Proof.
  assert (Hread : forall v s,
             vertex_of_line (best_vertex_line str_float v s) = Some v).
  { intros v s. unfold vertex_of_line, best_vertex_line.
    cbn [append skip_chars].
    rewrite before_blank_str_int, int_of_string_str_int.
    now rewrite DecimalZ.of_to. }
  split; [exact Hread|].
  intros v1 s1 v2 s2 E.
  pose proof (Hread v1 s1) as H1. rewrite E, Hread in H1. congruence.
Qed.

Lemma best_vertex_line_names_vertex_witness :
  34 = 34.
Proof.
  apply (proj2 (best_vertex_line_names_vertex str_blank)
           34 (pagerank row_34) 34 (pagerank row_1)).
  reflexivity.
Defined.

(** ** The sorted tables and their first rows *)

Lemma StronglySorted_firstn_skipn {A} (R : A -> A -> Prop) (l : list A) :
  StronglySorted R l ->
  forall n a b, In a (firstn n l) -> In b (skipn n l) -> R a b.
Proof.
  induction 1 as [|x l Hs IH Hall]; intros n a b Ha Hb.
  - destruct n; contradiction.
  - destruct n as [|n]; [contradiction|]. cbn in Ha, Hb.
    destruct Ha as [<-|Ha].
    + apply (proj1 (Forall_forall _ _) Hall).
      rewrite <- (firstn_skipn n l). apply in_or_app. now right.
    + now apply (IH n).
Qed.

Lemma StronglySorted_firstn {A} (R : A -> A -> Prop) (l : list A) (n : nat) :
  StronglySorted R l -> StronglySorted R (firstn n l).
Proof.
  intros H. revert n. induction H as [|x l Hs IH Hall]; intros n.
  - destruct n; constructor.
  - destruct n as [|n]; cbn; constructor; [apply IH|].
    apply Forall_forall. intros y Hy.
    apply (proj1 (Forall_forall _ _) Hall).
    rewrite <- (firstn_skipn n l). apply in_or_app. now left.
Qed.

(** X9.  [sort_pr.head(3)] gives the three best rows: together with the
    rows it leaves out it is a rearrangement of the table, it has three
    rows or the whole table if that has fewer and, the scores being
    numbers, its rows are in descending order of score and no row left out
    has a score above one of them. *)
Theorem sort_pr_head_best_three (df : DataFrame) :
  exists left_out,
    Permutation df (sort_pr_head df ++ left_out) /\
    List.length (sort_pr_head df) = Nat.min 3 (len df) /\
    (nan_free df ->
     Sorted desc_score (sort_pr_head df) /\
     forall a b, In a (sort_pr_head df) -> In b left_out ->
                 SFleb (pagerank b) (pagerank a) = true).
Proof.
  exists (skipn 3 (sort_pr df)). unfold sort_pr_head, head, sort_pr, len.
  split; [|split].
  - rewrite firstn_skipn. apply sort_values_desc_perm.
  - rewrite length_firstn.
    now rewrite (Permutation_length (sort_values_desc_perm df)).
  - intros Hnan.
    assert (S : StronglySorted desc_score (sort_values_desc df)).
    { apply Sorted_StronglySorted; [exact desc_score_trans|].
      now apply sort_values_desc_sorted. }
    split.
    + apply StronglySorted_Sorted. now apply StronglySorted_firstn.
    + intros a b Ha Hb.
      exact (StronglySorted_firstn_skipn _ _ S 3%nat a b Ha Hb).
Qed.

Lemma sort_pr_head_best_three_witness :
  Sorted desc_score (sort_pr_head (karate_rows ++ tied_rows)).
Proof.
  destruct (sort_pr_head_best_three (karate_rows ++ tied_rows))
    as (left_out & _ & _ & H).
  apply H. repeat constructor.
Defined.

Lemma insert_out_degree_desc_perm (r : degree_row) (l : list degree_row) :
  Permutation (r :: l) (insert_out_degree_desc r l).
Proof.
  induction l as [|r' l IH]; cbn; [reflexivity|].
  destruct (out_degree r <? out_degree r'); [|reflexivity].
  rewrite perm_swap. now apply perm_skip.
Qed.

Lemma sort_values_out_degree_desc_perm (d : list degree_row) :
  Permutation d (sort_values_out_degree_desc d).
Proof.
  induction d as [|r d IH]; cbn; [constructor|].
  rewrite <- insert_out_degree_desc_perm. now apply perm_skip.
Qed.

Lemma insert_out_degree_desc_sorted (r : degree_row) (l : list degree_row) :
  Sorted desc_out_degree l -> Sorted desc_out_degree (insert_out_degree_desc r l).
Proof.
  intros Hs. induction l as [|r' l IH]; cbn.
  - repeat constructor.
  - inversion Hs as [|? ? Hs' Hhd]; subst.
    destruct (Z.ltb_spec (out_degree r) (out_degree r')) as [E|E].
    + constructor; [now apply IH|].
      destruct l as [|r'' l]; cbn.
      * constructor. unfold desc_out_degree. lia.
      * destruct (out_degree r <? out_degree r'').
        -- constructor. now inversion Hhd.
        -- constructor. unfold desc_out_degree. lia.
    + constructor; [exact Hs|]. constructor. exact E.
Qed.

Lemma sort_values_out_degree_desc_sorted (d : list degree_row) :
  Sorted desc_out_degree (sort_values_out_degree_desc d).
Proof.
  induction d as [|r d IH]; cbn; [constructor|].
  now apply insert_out_degree_desc_sorted.
Qed.

(** X10.  Cell 19 gives the four rows of greatest out-degree of any degree
    table: with the rows it leaves out it is a rearrangement of the table,
    it has four rows or the whole table if that has fewer, its rows are in
    descending order of out-degree and no row left out has a greater
    out-degree than one of them. *)
Theorem degrees_head_greatest_four (d : list degree_row) :
  exists left_out,
    Permutation d (degrees_head d ++ left_out) /\
    List.length (degrees_head d) = Nat.min 4 (List.length d) /\
    Sorted desc_out_degree (degrees_head d) /\
    forall a b, In a (degrees_head d) -> In b left_out ->
                out_degree b <= out_degree a.
Proof.
  exists (skipn 4 (sort_values_out_degree_desc d)). unfold degrees_head, head.
  assert (S : StronglySorted desc_out_degree (sort_values_out_degree_desc d)).
  { apply Sorted_StronglySorted; [|apply sort_values_out_degree_desc_sorted].
    intros a b c Hab Hbc. unfold desc_out_degree in *. lia. }
  split; [|split; [|split]].
  - rewrite firstn_skipn. apply sort_values_out_degree_desc_perm.
  - rewrite length_firstn.
    now rewrite (Permutation_length (sort_values_out_degree_desc_perm d)).
  - apply StronglySorted_Sorted. now apply StronglySorted_firstn.
  - intros a b Ha Hb.
    exact (StronglySorted_firstn_skipn _ _ S 4%nat a b Ha Hb).
Qed.
